(** * Aravis: the abstract device (arvdevice.c)

    A shallow embedding of [src/arvdevice.c]: the GObject base class
    [ArvDevice], its public entry points that guard their arguments and then
    delegate to the virtual table of the concrete transport, and the
    name-based feature accessors built on the Genicam node lookup.

    Conventions of the embedding.
    - A C pointer is an address in [N]; [NULL] is [0].
    - [guint32] and [size_t] values are in [N], [gint64] values in [Z],
      [double] values are primitive floats; [const char *] results are
      [option string], with [None] for the null pointer.
    - C memory handed to the device functions through pointers (the out
      parameters [size], [value], [min], [max], the [buffer]) lives in
      [mem], a finite map from addresses to cells.
    - Everything owned by GObject instances (transport state, the Genicam
      tree, its nodes, signal handlers) lives in an object store of an
      abstract type [E]; the functions the file calls but does not define
      are the fields of [GObjectWorld E].
    - Every call that leaves the file (virtual method, node method, signal
      emission) is recorded in [trace]. *)

From Stdlib Require Import ZArith NArith List.
From Stdlib Require Import PrimFloat.
From stdpp Require Import base option gmap strings list.

Open Scope N_scope.

(** ** C level data *)

Abbreviation pointer := N.
Definition NULL : pointer := 0.

Definition gboolean := bool.
Definition FALSE : gboolean := false.
Definition TRUE : gboolean := true.

(** [const char *]: the null pointer or a string. *)
Definition cstring := option string.

Inductive cell :=
| CInt64 (v : Z)
| CDouble (v : float)
| CUInt32 (v : N)
| CSize (v : N)
| CBytes (v : list N).

(** The part of the state a callee reaches through a pointer argument:
    C memory together with the object store. *)
Definition Heap (E : Type) : Type := gmap N cell * E.

(** ** Run-time types tested by the [ARV_IS_*] macros *)

Inductive GType :=
| ARV_TYPE_DEVICE
| ARV_TYPE_GC
| ARV_TYPE_GC_COMMAND
| ARV_TYPE_GC_INTEGER
| ARV_TYPE_GC_FLOAT
| ARV_TYPE_GC_BOOLEAN
| ARV_TYPE_GC_ENUMERATION
| ARV_TYPE_GC_STRING.

(** ** Calls leaving the file *)

Inductive Call :=
| CallCreateStream (device callback user_data : pointer)
| CallReadMemory (device : pointer) (address size : N) (buffer : pointer)
| CallWriteMemory (device : pointer) (address size : N) (buffer : pointer)
| CallReadRegister (device : pointer) (address : N) (value : pointer)
| CallWriteRegister (device : pointer) (address value : N)
| CallGetGenicam (device : pointer)
| CallGetGenicamXml (device size : pointer)
| CallSignalNew (name : string)
| CallSignalEmit (device : pointer) (signal_id detail : N)
| CallCommandExecute (node : pointer)
| CallIntegerSetValue (node : pointer) (value : Z)
| CallIntegerGetValue (node : pointer)
| CallIntegerGetMin (node : pointer)
| CallIntegerGetMax (node : pointer)
| CallFloatSetValue (node : pointer) (value : float)
| CallFloatGetValue (node : pointer)
| CallFloatGetMin (node : pointer)
| CallFloatGetMax (node : pointer)
| CallBooleanSetValue (node : pointer) (value : Z)
| CallBooleanGetValue (node : pointer)
| CallEnumerationSetIntValue (node : pointer) (value : Z)
| CallEnumerationGetIntValue (node : pointer)
| CallEnumerationSetStringValue (node : pointer) (value : string)
| CallEnumerationGetStringValue (node : pointer)
| CallStringSetValue (node : pointer) (value : string)
| CallStringGetValue (node : pointer).

(** ** The virtual table of [ArvDeviceClass]

    A method that receives a pointer into C memory acts on the whole
    [Heap]; a method that receives none acts on the object store only. *)

Record ArvDeviceClass (E : Type) := {
  create_stream : pointer -> pointer -> pointer -> Heap E -> pointer * Heap E;
  read_memory : pointer -> N -> N -> pointer -> Heap E -> gboolean * Heap E;
  write_memory : pointer -> N -> N -> pointer -> Heap E -> gboolean * Heap E;
  read_register : pointer -> N -> pointer -> Heap E -> gboolean * Heap E;
  write_register : pointer -> N -> N -> E -> gboolean * E;
  get_genicam : pointer -> E -> pointer * E;
  get_genicam_xml : pointer -> pointer -> Heap E -> cstring * Heap E;
  control_lost : pointer -> Heap E -> Heap E
}.

Arguments create_stream {E}.
Arguments read_memory {E}.
Arguments write_memory {E}.
Arguments read_register {E}.
Arguments write_register {E}.
Arguments get_genicam {E}.
Arguments get_genicam_xml {E}.
Arguments control_lost {E}.

(** ** What the file uses and does not define

    The GLib type check, the class lookup, the Genicam lookup
    [arv_gc_get_node], the methods of the node interfaces and the GLib
    signal functions. *)

Class GObjectWorld (E : Type) := {
  g_type_check_instance_is_a : E -> pointer -> GType -> bool;
  ARV_DEVICE_GET_CLASS : E -> pointer -> ArvDeviceClass E;
  arv_gc_get_node : E -> pointer -> string -> pointer;
  arv_gc_command_execute : pointer -> E -> unit * E;
  arv_gc_integer_set_value : pointer -> Z -> E -> unit * E;
  arv_gc_integer_get_value : pointer -> E -> Z * E;
  arv_gc_integer_get_min : pointer -> E -> Z * E;
  arv_gc_integer_get_max : pointer -> E -> Z * E;
  arv_gc_float_set_value : pointer -> float -> E -> unit * E;
  arv_gc_float_get_value : pointer -> E -> float * E;
  arv_gc_float_get_min : pointer -> E -> float * E;
  arv_gc_float_get_max : pointer -> E -> float * E;
  arv_gc_boolean_set_value : pointer -> Z -> E -> unit * E;
  arv_gc_boolean_get_value : pointer -> E -> Z * E;
  arv_gc_enumeration_set_int_value : pointer -> Z -> E -> unit * E;
  arv_gc_enumeration_get_int_value : pointer -> E -> Z * E;
  arv_gc_enumeration_set_string_value : pointer -> string -> E -> unit * E;
  arv_gc_enumeration_get_string_value : pointer -> E -> cstring * E;
  arv_gc_string_set_value : pointer -> string -> E -> unit * E;
  arv_gc_string_get_value : pointer -> E -> cstring * E;
  g_signal_new : string -> E -> N * E;
  g_signal_emit : pointer -> N -> N -> Heap E -> unit * Heap E
}.

(** ** State and the state monad *)

Record World (E : Type) := mkWorld {
  mem : gmap N cell;
  objs : E;
  arv_device_signals : list N;
  trace : list Call
}.

Arguments mkWorld {E}.
Arguments mem {E}.
Arguments objs {E}.
Arguments arv_device_signals {E}.
Arguments trace {E}.

Definition M (E A : Type) : Type := World E -> A * World E.

Definition ret {E A} (a : A) : M E A := fun w => (a, w).

Definition bind {E A B} (m : M E A) (k : A -> M E B) : M E B :=
  fun w => let (a, w') := m w in k a w'.

Notation "'do' x <- m ;; k" := (bind m (fun x => k))
  (at level 10, x name, m at level 99, k at level 200).
Notation "'exec' m ;; k" := (bind m (fun _ => k))
  (at level 10, m at level 99, k at level 200).

(** A condition evaluated in the current state. *)
Definition Cond (E : Type) : Type := World E -> bool.

Definition expr {E} (b : bool) : Cond E := fun _ => b.

Definition ifM {E A} (c : Cond E) (t e : M E A) : M E A :=
  fun w => if c w then t w else e w.

Notation "'If' c 'Then' t 'Else' e" := (ifM c t e)
  (at level 10, c at level 99, t at level 200, e at level 200).

(** [g_return_val_if_fail (cond, val)]: when [cond] fails the function
    returns [val] at once (GLib also prints a warning, which is not part of
    the state). *)
Definition g_return_val_if_fail {E A} (c : Cond E) (val : A) (k : M E A) : M E A :=
  ifM c k (ret val).

Definition g_return_if_fail {E} (c : Cond E) (k : M E unit) : M E unit :=
  g_return_val_if_fail c tt k.

(** [*p = v] *)
Definition store {E} (p : pointer) (v : cell) : M E unit :=
  fun w => (tt, mkWorld (<[p := v]> (mem w)) (objs w) (arv_device_signals w) (trace w)).

(** Run a callee on the object store and record the call. *)
Definition ext {E A} (c : Call) (f : E -> A * E) : M E A :=
  fun w => let (a, e) := f (objs w) in
           (a, mkWorld (mem w) e (arv_device_signals w) (trace w ++ [c])).

(** Run a callee on memory and object store and record the call. *)
Definition ext_mem {E A} (c : Call) (f : Heap E -> A * Heap E) : M E A :=
  fun w => let '(a, (m, e)) := f (mem w, objs w) in
           (a, mkWorld m e (arv_device_signals w) (trace w ++ [c])).

Definition ARV_DEVICE_SIGNAL_CONTROL_LOST : nat := 0.
Definition ARV_DEVICE_SIGNAL_LAST : nat := 1.

Section Device.

Context {E : Type} `{GObjectWorld E}.

(** [G_TYPE_CHECK_INSTANCE_TYPE]: false on the null pointer, otherwise the
    is-a test of the instance. *)
Definition G_TYPE_CHECK_INSTANCE_TYPE (e : E) (instance : pointer) (t : GType) : bool :=
  negb (instance =? NULL) && g_type_check_instance_is_a e instance t.

Definition ARV_IS_DEVICE (p : pointer) : Cond E :=
  fun w => G_TYPE_CHECK_INSTANCE_TYPE (objs w) p ARV_TYPE_DEVICE.
Definition ARV_IS_GC (p : pointer) : Cond E :=
  fun w => G_TYPE_CHECK_INSTANCE_TYPE (objs w) p ARV_TYPE_GC.
Definition ARV_IS_GC_COMMAND (p : pointer) : Cond E :=
  fun w => G_TYPE_CHECK_INSTANCE_TYPE (objs w) p ARV_TYPE_GC_COMMAND.
Definition ARV_IS_GC_INTEGER (p : pointer) : Cond E :=
  fun w => G_TYPE_CHECK_INSTANCE_TYPE (objs w) p ARV_TYPE_GC_INTEGER.
Definition ARV_IS_GC_FLOAT (p : pointer) : Cond E :=
  fun w => G_TYPE_CHECK_INSTANCE_TYPE (objs w) p ARV_TYPE_GC_FLOAT.
Definition ARV_IS_GC_BOOLEAN (p : pointer) : Cond E :=
  fun w => G_TYPE_CHECK_INSTANCE_TYPE (objs w) p ARV_TYPE_GC_BOOLEAN.
Definition ARV_IS_GC_ENUMERATION (p : pointer) : Cond E :=
  fun w => G_TYPE_CHECK_INSTANCE_TYPE (objs w) p ARV_TYPE_GC_ENUMERATION.
Definition ARV_IS_GC_STRING (p : pointer) : Cond E :=
  fun w => G_TYPE_CHECK_INSTANCE_TYPE (objs w) p ARV_TYPE_GC_STRING.

(** [ARV_DEVICE_GET_CLASS (device)->method (...)] for a method that
    receives a pointer into C memory. *)
Definition virtual_mem {A} (device : pointer) (c : Call)
    (method : ArvDeviceClass E -> Heap E -> A * Heap E) : M E A :=
  fun w => ext_mem c (method (ARV_DEVICE_GET_CLASS (objs w) device)) w.

(** The same for a method that receives none. *)
Definition virtual {A} (device : pointer) (c : Call)
    (method : ArvDeviceClass E -> E -> A * E) : M E A :=
  fun w => ext c (method (ARV_DEVICE_GET_CLASS (objs w) device)) w.

Definition arv_device_create_stream (device callback user_data : pointer) : M E pointer :=
  g_return_val_if_fail (ARV_IS_DEVICE device) NULL $
  virtual_mem device (CallCreateStream device callback user_data)
    (fun k => create_stream k device callback user_data).

Definition arv_device_read_memory (device : pointer) (address size : N) (buffer : pointer)
    : M E gboolean :=
  g_return_val_if_fail (ARV_IS_DEVICE device) FALSE $
  g_return_val_if_fail (expr (negb (buffer =? NULL))) FALSE $
  g_return_val_if_fail (expr (0 <? size)) FALSE $
  virtual_mem device (CallReadMemory device address size buffer)
    (fun k => read_memory k device address size buffer).

Definition arv_device_write_memory (device : pointer) (address size : N) (buffer : pointer)
    : M E gboolean :=
  g_return_val_if_fail (ARV_IS_DEVICE device) FALSE $
  g_return_val_if_fail (expr (negb (buffer =? NULL))) FALSE $
  g_return_val_if_fail (expr (0 <? size)) FALSE $
  virtual_mem device (CallWriteMemory device address size buffer)
    (fun k => write_memory k device address size buffer).

Definition arv_device_read_register (device : pointer) (address : N) (value : pointer)
    : M E gboolean :=
  g_return_val_if_fail (ARV_IS_DEVICE device) FALSE $
  g_return_val_if_fail (expr (negb (value =? NULL))) FALSE $
  virtual_mem device (CallReadRegister device address value)
    (fun k => read_register k device address value).

Definition arv_device_write_register (device : pointer) (address value : N) : M E gboolean :=
  g_return_val_if_fail (ARV_IS_DEVICE device) FALSE $
  virtual device (CallWriteRegister device address value)
    (fun k => write_register k device address value).

Definition arv_device_get_genicam (device : pointer) : M E pointer :=
  g_return_val_if_fail (ARV_IS_DEVICE device) NULL $
  virtual device (CallGetGenicam device) (fun k => get_genicam k device).

(** [static _get_genicam_xml]: [*size = 0; return NULL;] *)
Definition _get_genicam_xml (device size : pointer) : Heap E -> cstring * Heap E :=
  fun '(m, e) => (None, (<[size := CSize 0]> m, e)).

Definition arv_device_get_genicam_xml (device size : pointer) : M E cstring :=
  g_return_val_if_fail (ARV_IS_DEVICE device) None $
  g_return_val_if_fail (expr (negb (size =? NULL))) None $
  virtual_mem device (CallGetGenicamXml device size)
    (fun k => get_genicam_xml k device size).

Definition arv_device_execute_command (device : pointer) (feature : string) : M E unit :=
  do genicam <- arv_device_get_genicam device ;;
  g_return_if_fail (ARV_IS_GC genicam) (
    do node <- (fun w => (arv_gc_get_node (objs w) genicam feature, w)) ;;
    If ARV_IS_GC_COMMAND node
    Then ext (CallCommandExecute node) (arv_gc_command_execute node)
    Else ret tt).

Definition arv_device_get_feature (device : pointer) (feature : string) : M E pointer :=
  do genicam <- arv_device_get_genicam device ;;
  g_return_val_if_fail (ARV_IS_GC genicam) NULL $
  (fun w => (arv_gc_get_node (objs w) genicam feature, w)).

Definition arv_device_set_string_feature_value (device : pointer) (feature value : string)
    : M E unit :=
  do node <- arv_device_get_feature device feature ;;
  If ARV_IS_GC_ENUMERATION node
  Then ext (CallEnumerationSetStringValue node value)
           (arv_gc_enumeration_set_string_value node value)
  Else If ARV_IS_GC_STRING node
  Then ext (CallStringSetValue node value) (arv_gc_string_set_value node value)
  Else ret tt.

Definition arv_device_get_string_feature_value (device : pointer) (feature : string)
    : M E cstring :=
  do node <- arv_device_get_feature device feature ;;
  If ARV_IS_GC_ENUMERATION node
  Then ext (CallEnumerationGetStringValue node) (arv_gc_enumeration_get_string_value node)
  Else If ARV_IS_GC_STRING node
  Then ext (CallStringGetValue node) (arv_gc_string_get_value node)
  Else ret None.

Definition arv_device_set_integer_feature_value (device : pointer) (feature : string)
    (value : Z) : M E unit :=
  do node <- arv_device_get_feature device feature ;;
  If ARV_IS_GC_INTEGER node
  Then ext (CallIntegerSetValue node value) (arv_gc_integer_set_value node value)
  Else If ARV_IS_GC_ENUMERATION node
  Then ext (CallEnumerationSetIntValue node value)
           (arv_gc_enumeration_set_int_value node value)
  Else If ARV_IS_GC_BOOLEAN node
  Then ext (CallBooleanSetValue node value) (arv_gc_boolean_set_value node value)
  Else ret tt.

Definition arv_device_get_integer_feature_value (device : pointer) (feature : string)
    : M E Z :=
  do node <- arv_device_get_feature device feature ;;
  If ARV_IS_GC_INTEGER node
  Then ext (CallIntegerGetValue node) (arv_gc_integer_get_value node)
  Else If ARV_IS_GC_ENUMERATION node
  Then ext (CallEnumerationGetIntValue node) (arv_gc_enumeration_get_int_value node)
  Else If ARV_IS_GC_BOOLEAN node
  Then ext (CallBooleanGetValue node) (arv_gc_boolean_get_value node)
  Else ret 0%Z.

Definition arv_device_get_integer_feature_bounds (device : pointer) (feature : string)
    (min max : pointer) : M E unit :=
  do node <- arv_device_get_feature device feature ;;
  If ARV_IS_GC_INTEGER node
  Then
    exec (If expr (negb (min =? NULL))
          Then do v <- ext (CallIntegerGetMin node) (arv_gc_integer_get_min node) ;;
               store min (CInt64 v)
          Else ret tt) ;;
    exec (If expr (negb (max =? NULL))
          Then do v <- ext (CallIntegerGetMax node) (arv_gc_integer_get_max node) ;;
               store max (CInt64 v)
          Else ret tt) ;;
    ret tt
  Else ret tt.

Definition arv_device_set_float_feature_value (device : pointer) (feature : string)
    (value : float) : M E unit :=
  do node <- arv_device_get_feature device feature ;;
  If ARV_IS_GC_FLOAT node
  Then ext (CallFloatSetValue node value) (arv_gc_float_set_value node value)
  Else ret tt.

Definition arv_device_get_float_feature_value (device : pointer) (feature : string)
    : M E float :=
  do node <- arv_device_get_feature device feature ;;
  If ARV_IS_GC_FLOAT node
  Then ext (CallFloatGetValue node) (arv_gc_float_get_value node)
  Else ret 0%float.

Definition arv_device_get_float_feature_bounds (device : pointer) (feature : string)
    (min max : pointer) : M E unit :=
  do node <- arv_device_get_feature device feature ;;
  If ARV_IS_GC_FLOAT node
  Then
    exec (If expr (negb (min =? NULL))
          Then do v <- ext (CallFloatGetMin node) (arv_gc_float_get_min node) ;;
               store min (CDouble v)
          Else ret tt) ;;
    If expr (negb (max =? NULL))
    Then do v <- ext (CallFloatGetMax node) (arv_gc_float_get_max node) ;;
         store max (CDouble v)
    Else ret tt
  Else ret tt.

(** [arv_device_signals[ARV_DEVICE_SIGNAL_CONTROL_LOST]] *)
Definition control_lost_signal_id : M E N :=
  fun w => (default 0 (arv_device_signals w !! ARV_DEVICE_SIGNAL_CONTROL_LOST), w).

Definition arv_device_emit_control_lost_signal (device : pointer) : M E unit :=
  g_return_if_fail (ARV_IS_DEVICE device) (
    do id <- control_lost_signal_id ;;
    ext_mem (CallSignalEmit device id 0) (g_signal_emit device id 0)).

(** [arv_device_init]: the instance initialiser has an empty body. *)
Definition arv_device_init (device : pointer) : M E unit := ret tt.

(** [arv_device_class_init]: installs the default XML accessor in the class
    and registers the "control-lost" signal. The [finalize] slot of the
    parent [GObjectClass] only chains to the parent and is left out. *)
Definition arv_device_class_init (device_class : ArvDeviceClass E)
    : M E (ArvDeviceClass E) :=
  let device_class :=
    {| create_stream := create_stream device_class;
       read_memory := read_memory device_class;
       write_memory := write_memory device_class;
       read_register := read_register device_class;
       write_register := write_register device_class;
       get_genicam := get_genicam device_class;
       get_genicam_xml := _get_genicam_xml;
       control_lost := control_lost device_class |} in
  do id <- ext (CallSignalNew "control-lost") (g_signal_new "control-lost") ;;
  exec (fun w => (tt, mkWorld (mem w) (objs w)
                      (<[ARV_DEVICE_SIGNAL_CONTROL_LOST := id]> (arv_device_signals w))
                      (trace w))) ;;
  ret device_class.

(** The dispatch policy of section 4.2 in the specification's words: an
    integer-like access takes the first of Integer, Enumeration, Boolean
    that the node is an instance of, and nothing else. *)
Definition integer_like_order : list GType :=
  [ARV_TYPE_GC_INTEGER; ARV_TYPE_GC_ENUMERATION; ARV_TYPE_GC_BOOLEAN].

Definition integer_like_variant (e : E) (node : pointer) : option GType :=
  List.find (G_TYPE_CHECK_INSTANCE_TYPE e node) integer_like_order.

(** The tree accessor of the transport bound to [device] only hands out
    the reference to the feature tree (section 4.1: a non-owning
    reference), it does not change any object. *)
Definition tree_accessor_pure (w : World E) (device : pointer) : Prop :=
  snd (get_genicam (ARV_DEVICE_GET_CLASS (objs w) device) device (objs w)) = objs w.

End Device.

(** ** Genicam nodes and a transport to run the device functions on

    Modelled from the spec: the Genicam node classes (arvgcinteger.c,
    arvgcfloat.c, arvgcboolean.c, arvgcenumeration.c, arvgcstring.c,
    arvgccommand.c), the node lookup of arvgc.c and every concrete
    transport are outside [src/]. The nodes follow sections 3 and 4.2 of
    the specification: a closed set of six variants, numeric variants with
    an inclusive [min, max], integer and string access to an enumeration
    through its entries, boolean access by truthiness. *)

Inductive ArvGcNode :=
| GcInteger (value min max : Z)
| GcFloat (value min max : float)
| GcBoolean (value : bool)
| GcEnumeration (entries : list (string * Z)) (value : Z)
| GcString (value : string)
| GcCommand (executions : nat).

Inductive GObject :=
| ObjDevice (genicam : pointer) (memory : gmap N N)
| ObjGc (nodes : gmap string pointer)
| ObjNode (node : ArvGcNode)
| ObjStream (device callback user_data : pointer).

Abbreviation Objects := (gmap N GObject).

#[global] Instance GType_eq_dec : EqDecision GType.
Proof. solve_decision. Defined.

Definition node_type (n : ArvGcNode) : GType :=
  match n with
  | GcInteger _ _ _ => ARV_TYPE_GC_INTEGER
  | GcFloat _ _ _ => ARV_TYPE_GC_FLOAT
  | GcBoolean _ => ARV_TYPE_GC_BOOLEAN
  | GcEnumeration _ _ => ARV_TYPE_GC_ENUMERATION
  | GcString _ => ARV_TYPE_GC_STRING
  | GcCommand _ => ARV_TYPE_GC_COMMAND
  end.

Definition object_is_a (e : Objects) (p : pointer) (t : GType) : bool :=
  match e !! p with
  | Some (ObjDevice _ _) => bool_decide (t = ARV_TYPE_DEVICE)
  | Some (ObjGc _) => bool_decide (t = ARV_TYPE_GC)
  | Some (ObjNode n) => bool_decide (t = node_type n)
  | _ => false
  end.

(** [lookup(name) -> node-or-empty] *)
Definition gc_get_node (e : Objects) (genicam : pointer) (name : string) : pointer :=
  match e !! genicam with
  | Some (ObjGc nodes) => default NULL (nodes !! name)
  | _ => NULL
  end.

Definition read_node {A} (p : pointer) (dflt : A) (f : ArvGcNode -> A) (e : Objects)
    : A * Objects :=
  match e !! p with
  | Some (ObjNode n) => (f n, e)
  | _ => (dflt, e)
  end.

Definition update_node (p : pointer) (f : ArvGcNode -> ArvGcNode) (e : Objects)
    : unit * Objects :=
  match e !! p with
  | Some (ObjNode n) => (tt, <[p := ObjNode (f n)]> e)
  | _ => (tt, e)
  end.

Definition entry_of_name (entries : list (string * Z)) (name : string) : option Z :=
  snd <$> List.find (fun en => bool_decide (fst en = name)) entries.

Definition entry_of_value (entries : list (string * Z)) (v : Z) : option string :=
  fst <$> List.find (fun en => bool_decide (snd en = v)) entries.

Definition gc_command_execute (p : pointer) : Objects -> unit * Objects :=
  update_node p (fun n => match n with GcCommand k => GcCommand (S k) | _ => n end).

Definition gc_integer_set_value (p : pointer) (v : Z) : Objects -> unit * Objects :=
  update_node p (fun n => match n with GcInteger _ lo hi => GcInteger v lo hi | _ => n end).
Definition gc_integer_get_value (p : pointer) : Objects -> Z * Objects :=
  read_node p 0%Z (fun n => match n with GcInteger v _ _ => v | _ => 0%Z end).
Definition gc_integer_get_min (p : pointer) : Objects -> Z * Objects :=
  read_node p 0%Z (fun n => match n with GcInteger _ lo _ => lo | _ => 0%Z end).
Definition gc_integer_get_max (p : pointer) : Objects -> Z * Objects :=
  read_node p 0%Z (fun n => match n with GcInteger _ _ hi => hi | _ => 0%Z end).

Definition gc_float_set_value (p : pointer) (v : float) : Objects -> unit * Objects :=
  update_node p (fun n => match n with GcFloat _ lo hi => GcFloat v lo hi | _ => n end).
Definition gc_float_get_value (p : pointer) : Objects -> float * Objects :=
  read_node p 0%float (fun n => match n with GcFloat v _ _ => v | _ => 0%float end).
Definition gc_float_get_min (p : pointer) : Objects -> float * Objects :=
  read_node p 0%float (fun n => match n with GcFloat _ lo _ => lo | _ => 0%float end).
Definition gc_float_get_max (p : pointer) : Objects -> float * Objects :=
  read_node p 0%float (fun n => match n with GcFloat _ _ hi => hi | _ => 0%float end).

(** set: nonzero -> true; get: 0 or 1 *)
Definition gc_boolean_set_value (p : pointer) (v : Z) : Objects -> unit * Objects :=
  update_node p (fun n => match n with GcBoolean _ => GcBoolean (negb (v =? 0)%Z) | _ => n end).
Definition gc_boolean_get_value (p : pointer) : Objects -> Z * Objects :=
  read_node p 0%Z (fun n => match n with GcBoolean b => Z.b2z b | _ => 0%Z end).

Definition gc_enumeration_set_int_value (p : pointer) (v : Z) : Objects -> unit * Objects :=
  update_node p (fun n => match n with GcEnumeration en _ => GcEnumeration en v | _ => n end).
Definition gc_enumeration_get_int_value (p : pointer) : Objects -> Z * Objects :=
  read_node p 0%Z (fun n => match n with GcEnumeration _ v => v | _ => 0%Z end).
Definition gc_enumeration_set_string_value (p : pointer) (s : string)
    : Objects -> unit * Objects :=
  update_node p (fun n =>
    match n with
    | GcEnumeration en v => GcEnumeration en (default v (entry_of_name en s))
    | _ => n
    end).
Definition gc_enumeration_get_string_value (p : pointer) : Objects -> cstring * Objects :=
  read_node p None (fun n =>
    match n with GcEnumeration en v => entry_of_value en v | _ => None end).

Definition gc_string_set_value (p : pointer) (s : string) : Objects -> unit * Objects :=
  update_node p (fun n => match n with GcString _ => GcString s | _ => n end).
Definition gc_string_get_value (p : pointer) : Objects -> cstring * Objects :=
  read_node p None (fun n => match n with GcString s => Some s | _ => None end).

(** A transport backed by a byte-addressed device memory held in the device
    object; registers are four bytes, most significant first. It keeps the
    XML accessor that [arv_device_class_init] installs. *)

Definition read_bytes (memory : gmap N N) (address size : N) : list N :=
  (fun i => default 0 (memory !! (address + N.of_nat i))) <$> seq 0 (N.to_nat size).

Fixpoint write_bytes (memory : gmap N N) (address : N) (bytes : list N) : gmap N N :=
  match bytes with
  | [] => memory
  | b :: bytes' => write_bytes (<[address := b]> memory) (address + 1) bytes'
  end.

Definition word_of_bytes (bytes : list N) : N :=
  fold_left (fun acc b => acc * 256 + b) bytes 0.

Definition bytes_of_word (v : N) : list N :=
  [(v / 16777216) mod 256; (v / 65536) mod 256; (v / 256) mod 256; v mod 256].

Definition mem_create_stream (device callback user_data : pointer)
    : Heap Objects -> pointer * Heap Objects :=
  fun '(m, e) =>
    let stream := N.succ (map_fold (fun p _ acc => N.max p acc) 0 e) in
    (stream, (m, <[stream := ObjStream device callback user_data]> e)).

Definition mem_read_memory (device : pointer) (address size : N) (buffer : pointer)
    : Heap Objects -> gboolean * Heap Objects :=
  fun '(m, e) =>
    match e !! device with
    | Some (ObjDevice _ memory) =>
        (TRUE, (<[buffer := CBytes (read_bytes memory address size)]> m, e))
    | _ => (FALSE, (m, e))
    end.

Definition mem_write_memory (device : pointer) (address size : N) (buffer : pointer)
    : Heap Objects -> gboolean * Heap Objects :=
  fun '(m, e) =>
    match e !! device, m !! buffer with
    | Some (ObjDevice gc memory), Some (CBytes bytes) =>
        (TRUE, (m, <[device := ObjDevice gc
                      (write_bytes memory address (take (N.to_nat size) bytes))]> e))
    | _, _ => (FALSE, (m, e))
    end.

Definition mem_read_register (device : pointer) (address : N) (value : pointer)
    : Heap Objects -> gboolean * Heap Objects :=
  fun '(m, e) =>
    match e !! device with
    | Some (ObjDevice _ memory) =>
        (TRUE, (<[value := CUInt32 (word_of_bytes (read_bytes memory address 4))]> m, e))
    | _ => (FALSE, (m, e))
    end.

Definition mem_write_register (device : pointer) (address value : N)
    : Objects -> gboolean * Objects :=
  fun e =>
    match e !! device with
    | Some (ObjDevice gc memory) =>
        (TRUE, <[device := ObjDevice gc (write_bytes memory address (bytes_of_word value))]> e)
    | _ => (FALSE, e)
    end.

Definition mem_get_genicam (device : pointer) : Objects -> pointer * Objects :=
  fun e =>
    match e !! device with
    | Some (ObjDevice gc _) => (gc, e)
    | _ => (NULL, e)
    end.

Definition mem_device_class : ArvDeviceClass Objects :=
  {| create_stream := mem_create_stream;
     read_memory := mem_read_memory;
     write_memory := mem_write_memory;
     read_register := mem_read_register;
     write_register := mem_write_register;
     get_genicam := mem_get_genicam;
     get_genicam_xml := _get_genicam_xml;
     control_lost := fun _ h => h |}.

#[global] Instance mem_world : GObjectWorld Objects :=
  {| g_type_check_instance_is_a := object_is_a;
     ARV_DEVICE_GET_CLASS := fun _ _ => mem_device_class;
     arv_gc_get_node := gc_get_node;
     arv_gc_command_execute := gc_command_execute;
     arv_gc_integer_set_value := gc_integer_set_value;
     arv_gc_integer_get_value := gc_integer_get_value;
     arv_gc_integer_get_min := gc_integer_get_min;
     arv_gc_integer_get_max := gc_integer_get_max;
     arv_gc_float_set_value := gc_float_set_value;
     arv_gc_float_get_value := gc_float_get_value;
     arv_gc_float_get_min := gc_float_get_min;
     arv_gc_float_get_max := gc_float_get_max;
     arv_gc_boolean_set_value := gc_boolean_set_value;
     arv_gc_boolean_get_value := gc_boolean_get_value;
     arv_gc_enumeration_set_int_value := gc_enumeration_set_int_value;
     arv_gc_enumeration_get_int_value := gc_enumeration_get_int_value;
     arv_gc_enumeration_set_string_value := gc_enumeration_set_string_value;
     arv_gc_enumeration_get_string_value := gc_enumeration_get_string_value;
     arv_gc_string_set_value := gc_string_set_value;
     arv_gc_string_get_value := gc_string_get_value;
     g_signal_new := fun _ e => (1, e);
     g_signal_emit := fun device _ _ h => (tt, control_lost mem_device_class device h) |}.

(** A camera with one feature of each variant. Address 1 is the device, 2
    its Genicam tree, 3 to 8 the nodes; 9 is free. Cells 100 to 105 are
    caller memory. *)

Definition camera_nodes : gmap string pointer :=
  <["Width" := 3]> (<["Gain" := 4]> (<["TriggerMode" := 5]> (<["PixelFormat" := 6]>
  (<["DeviceUserID" := 7]> (<["AcquisitionStart" := 8]> ∅))))).

Definition camera_objects : Objects :=
  <[1 := ObjDevice 2 (<[16 := 202]> (<[17 := 254]> ∅))]> (
  <[2 := ObjGc camera_nodes]> (
  <[3 := ObjNode (GcInteger 640 1 1920)]> (
  <[4 := ObjNode (GcFloat 1.5 0 24)]> (
  <[5 := ObjNode (GcBoolean false)]> (
  <[6 := ObjNode (GcEnumeration [("Mono8"%string, 0%Z); ("RGB8"%string, 1%Z)] 0)]> (
  <[7 := ObjNode (GcString "cam0")]> (
  <[8 := ObjNode (GcCommand 0)]> ∅))))))).

Definition caller_memory : gmap N cell :=
  <[100 := CInt64 11]> (<[101 := CInt64 22]> (<[102 := CDouble 3.5]> (<[103 := CDouble 4.5]>
  (<[104 := CSize 77]> (<[105 := CUInt32 5]> (<[106 := CBytes [1; 2; 3; 4]]> ∅)))))).

Definition camera : World Objects := mkWorld caller_memory camera_objects [0] [].

(** * Properties of the device functions, for every transport *)

Section DeviceProperties.

Context {E : Type} `{GObjectWorld E}.

Implicit Types (w : World E) (device node genicam : pointer) (feature : string).

(** Expose the guards of a function body. *)
Ltac guards := unfold g_return_if_fail, g_return_val_if_fail, ifM, ret, expr.

Lemma G_TYPE_CHECK_INSTANCE_TYPE_NULL (e : E) (t : GType) :
  G_TYPE_CHECK_INSTANCE_TYPE e NULL t = false.
Proof. reflexivity. Qed.

Lemma not_a_device w device :
  device = NULL \/ g_type_check_instance_is_a (objs w) device ARV_TYPE_DEVICE = false ->
  ARV_IS_DEVICE device w = false.
Proof.
  unfold ARV_IS_DEVICE, G_TYPE_CHECK_INSTANCE_TYPE.
  intros [-> | ->]; [reflexivity | apply andb_false_r].
Qed.

Lemma guard_fails {A} (c : Cond E) (val : A) (k : M E A) w :
  c w = false -> g_return_val_if_fail c val k w = (val, w).
Proof. unfold g_return_val_if_fail, ifM, ret. now intros ->. Qed.

Lemma guard_passes {A} (c : Cond E) (val : A) (k : M E A) w :
  c w = true -> g_return_val_if_fail c val k w = k w.
Proof. unfold g_return_val_if_fail, ifM. now intros ->. Qed.

(** Resolution of the Genicam tree on a handle that is not a device. *)
Lemma get_genicam_not_a_device w device :
  ARV_IS_DEVICE device w = false -> arv_device_get_genicam device w = (NULL, w).
Proof. intros Hd. unfold arv_device_get_genicam. now rewrite guard_fails. Qed.

(** Resolution only goes through the tree accessor of the transport: C
    memory and the signal table are as before. *)
Lemma get_genicam_frame w device :
  mem (snd (arv_device_get_genicam device w)) = mem w /\
  arv_device_signals (snd (arv_device_get_genicam device w)) = arv_device_signals w.
Proof.
  unfold arv_device_get_genicam, g_return_val_if_fail, ifM, ret, virtual, ext.
  destruct (ARV_IS_DEVICE device w); [|done].
  now destruct (get_genicam _ _ _).
Qed.

Lemma get_feature_unfold w device feature :
  arv_device_get_feature device feature w =
    let r := arv_device_get_genicam device w in
    (if ARV_IS_GC (fst r) (snd r)
     then arv_gc_get_node (objs (snd r)) (fst r) feature else NULL, snd r).
Proof.
  unfold arv_device_get_feature, bind, g_return_val_if_fail, ifM, ret.
  destruct (arv_device_get_genicam device w) as [g w1]; simpl.
  now destruct (ARV_IS_GC g w1).
Qed.

Lemma get_feature_frame w device feature :
  mem (snd (arv_device_get_feature device feature w)) = mem w /\
  arv_device_signals (snd (arv_device_get_feature device feature w)) = arv_device_signals w.
Proof. rewrite get_feature_unfold. simpl. apply get_genicam_frame. Qed.

(** C3. [arv_device_read_memory] and [arv_device_write_memory] called with
    [size == 0] or a null buffer return FALSE at once: the state, including
    the record of calls into the transport, is the one before the call. *)
Theorem memory_access_rejects_empty_request w device (address size : N) (buffer : pointer) :
  size = 0 \/ buffer = NULL ->
  arv_device_read_memory device address size buffer w = (FALSE, w) /\
  arv_device_write_memory device address size buffer w = (FALSE, w).
Proof.
  intros Hbad.
  unfold arv_device_read_memory, arv_device_write_memory; guards.
  destruct (ARV_IS_DEVICE device w); [|done].
  destruct Hbad as [-> | ->]; simpl; [|done].
  now destruct (negb (buffer =? NULL)).
Qed.

(** C4. On a null handle, or a handle that is not an [ArvDevice] instance,
    every public device operation returns its sentinel (NULL, FALSE, or
    nothing) and leaves the state, including the record of calls into the
    transport, as it was, whatever the other arguments are. *)
Theorem invalid_handle_fails_fast w device :
  device = NULL \/ g_type_check_instance_is_a (objs w) device ARV_TYPE_DEVICE = false ->
  (forall callback user_data,
     arv_device_create_stream device callback user_data w = (NULL, w)) /\
  (forall address size buffer,
     arv_device_read_memory device address size buffer w = (FALSE, w)) /\
  (forall address size buffer,
     arv_device_write_memory device address size buffer w = (FALSE, w)) /\
  (forall address value,
     arv_device_read_register device address value w = (FALSE, w)) /\
  (forall address value,
     arv_device_write_register device address value w = (FALSE, w)) /\
  arv_device_get_genicam device w = (NULL, w) /\
  (forall size, arv_device_get_genicam_xml device size w = (None, w)) /\
  arv_device_emit_control_lost_signal device w = (tt, w).
Proof.
  intros Hd%not_a_device.
  repeat split; intros;
    first [ apply guard_fails, Hd
          | unfold g_return_if_fail; apply guard_fails, Hd ].
Qed.

(** C10. [arv_device_read_register] with a null [value] pointer returns
    FALSE, and [arv_device_get_genicam_xml] with a null [size] pointer
    returns NULL, in both cases without a call into the transport and with
    the state unchanged. *)
Theorem null_output_pointer_rejected w device (address : N) :
  arv_device_read_register device address NULL w = (FALSE, w) /\
  arv_device_get_genicam_xml device NULL w = (None, w).
Proof.
  unfold arv_device_read_register, arv_device_get_genicam_xml; guards.
  now destruct (ARV_IS_DEVICE device w).
Qed.


(** [arv_device_class_init] leaves [_get_genicam_xml] in the class. *)
Lemma class_init_installs_default (k : ArvDeviceClass E) w :
  get_genicam_xml (fst (arv_device_class_init k w)) = _get_genicam_xml.
Proof.
  unfold arv_device_class_init, bind, ext, ret.
  now destruct (g_signal_new _ _).
Qed.

(** C5. For a valid device whose class still holds the XML accessor that
    [arv_device_class_init] installed (the transport did not override it),
    [arv_device_get_genicam_xml] returns the null pointer and stores 0 in
    the size output; nothing else changes. With a null size pointer there
    is no output and the state is untouched. *)
Theorem default_genicam_xml_is_empty w w0 (k : ArvDeviceClass E) device (size : pointer) :
  ARV_IS_DEVICE device w = true ->
  get_genicam_xml (ARV_DEVICE_GET_CLASS (objs w) device)
    = get_genicam_xml (fst (arv_device_class_init k w0)) ->
  arv_device_get_genicam_xml device size w =
    (None,
     if size =? NULL then w
     else mkWorld (<[size := CSize 0]> (mem w)) (objs w) (arv_device_signals w)
                  (trace w ++ [CallGetGenicamXml device size])).
Proof.
  intros Hd Hk. rewrite class_init_installs_default in Hk.
  unfold arv_device_get_genicam_xml. rewrite guard_passes by exact Hd.
  guards.
  destruct (size =? NULL); simpl; [reflexivity|].
  unfold virtual_mem, ext_mem. now rewrite Hk.
Qed.

(** The state after resolving a feature name is the state after the tree
    accessor; for an accessor that changes no object, the objects are the
    ones before the call. *)
Lemma get_feature_state w device feature :
  snd (arv_device_get_feature device feature w) = snd (arv_device_get_genicam device w).
Proof. now rewrite get_feature_unfold. Qed.

Lemma get_genicam_objs w device :
  tree_accessor_pure w device -> objs (snd (arv_device_get_genicam device w)) = objs w.
Proof.
  unfold tree_accessor_pure, arv_device_get_genicam, g_return_val_if_fail, ifM, ret,
    virtual, ext.
  intros Hp. destruct (ARV_IS_DEVICE device w); [|done].
  destruct (get_genicam _ _ _); simpl in *. exact Hp.
Qed.

(** A name that does not resolve is not an instance of anything. *)
Lemma unresolved_is_no_instance w device feature (t : GType) :
  fst (arv_device_get_feature device feature w) = NULL ->
  G_TYPE_CHECK_INSTANCE_TYPE
    (objs (snd (arv_device_get_feature device feature w)))
    (fst (arv_device_get_feature device feature w)) t = false.
Proof. now intros ->. Qed.

Lemma execute_command_unfold w device feature :
  arv_device_execute_command device feature w =
    let r := arv_device_get_feature device feature w in
    if ARV_IS_GC_COMMAND (fst r) (snd r)
    then ext (CallCommandExecute (fst r)) (arv_gc_command_execute (fst r)) (snd r)
    else (tt, snd r).
Proof.
  rewrite get_feature_unfold.
  unfold arv_device_execute_command, bind, g_return_if_fail, g_return_val_if_fail,
    ifM, ret.
  destruct (arv_device_get_genicam device w) as [g w1]; simpl.
  now destruct (ARV_IS_GC g w1).
Qed.

(** C6. [arv_device_execute_command] executes the node the name resolves
    to when that node is a Command. In every other case (no device, no
    valid feature tree, unknown name, node of another variant) nothing
    happens after the resolution: no node method is called, C memory is
    as before and, the tree accessor changing no object, so are all
    objects. *)
Theorem execute_command_only_on_command w device feature :
  let node := fst (arv_device_get_feature device feature w) in
  let w1 := snd (arv_device_get_genicam device w) in
  (ARV_IS_GC_COMMAND node w1 = true ->
     arv_device_execute_command device feature w =
       ext (CallCommandExecute node) (arv_gc_command_execute node) w1) /\
  (ARV_IS_GC_COMMAND node w1 = false ->
     arv_device_execute_command device feature w = (tt, w1) /\
     mem w1 = mem w /\
     (tree_accessor_pure w device -> objs w1 = objs w)).
Proof.
  simpl. rewrite execute_command_unfold. simpl. rewrite get_feature_state.
  split; intros ->; [reflexivity|].
  split; [reflexivity|]. split; [apply get_genicam_frame | apply get_genicam_objs].
Qed.

(** C1. The integer accessors take the first of Integer, Enumeration,
    Boolean that the resolved node is an instance of, call that
    interface's method and no other; when the node is an instance of none
    of the three, the set does nothing and the get returns 0. *)
Theorem integer_access_dispatch_order w device feature (value : Z) :
  let node := fst (arv_device_get_feature device feature w) in
  let w1 := snd (arv_device_get_feature device feature w) in
  arv_device_set_integer_feature_value device feature value w =
    match integer_like_variant (objs w1) node with
    | Some ARV_TYPE_GC_INTEGER =>
        ext (CallIntegerSetValue node value) (arv_gc_integer_set_value node value) w1
    | Some ARV_TYPE_GC_ENUMERATION =>
        ext (CallEnumerationSetIntValue node value)
            (arv_gc_enumeration_set_int_value node value) w1
    | Some ARV_TYPE_GC_BOOLEAN =>
        ext (CallBooleanSetValue node value) (arv_gc_boolean_set_value node value) w1
    | _ => (tt, w1)
    end /\
  arv_device_get_integer_feature_value device feature w =
    match integer_like_variant (objs w1) node with
    | Some ARV_TYPE_GC_INTEGER =>
        ext (CallIntegerGetValue node) (arv_gc_integer_get_value node) w1
    | Some ARV_TYPE_GC_ENUMERATION =>
        ext (CallEnumerationGetIntValue node) (arv_gc_enumeration_get_int_value node) w1
    | Some ARV_TYPE_GC_BOOLEAN =>
        ext (CallBooleanGetValue node) (arv_gc_boolean_get_value node) w1
    | _ => (0%Z, w1)
    end.
Proof.
  simpl.
  unfold arv_device_set_integer_feature_value, arv_device_get_integer_feature_value,
    bind, ifM, ret, integer_like_variant, integer_like_order,
    ARV_IS_GC_INTEGER, ARV_IS_GC_ENUMERATION, ARV_IS_GC_BOOLEAN.
  destruct (arv_device_get_feature device feature w) as [node w1]; simpl.
  destruct (G_TYPE_CHECK_INSTANCE_TYPE (objs w1) node ARV_TYPE_GC_INTEGER);
    [done|].
  destruct (G_TYPE_CHECK_INSTANCE_TYPE (objs w1) node ARV_TYPE_GC_ENUMERATION);
    [done|].
  now destruct (G_TYPE_CHECK_INSTANCE_TYPE (objs w1) node ARV_TYPE_GC_BOOLEAN).
Qed.

(** C2, as the code has it. For a feature name that does not resolve to a
    node, the integer get returns 0, the float get returns 0.0, the string
    get returns the null pointer (not an empty string), and the three set
    operations do nothing: the state is the one the resolution left, with
    C memory as before and, the tree accessor changing no object, all
    objects as before. *)
Theorem unresolved_feature_sentinels w device feature :
  fst (arv_device_get_feature device feature w) = NULL ->
  let w1 := snd (arv_device_get_genicam device w) in
  arv_device_get_integer_feature_value device feature w = (0%Z, w1) /\
  arv_device_get_float_feature_value device feature w = (0%float, w1) /\
  arv_device_get_string_feature_value device feature w = (None, w1) /\
  (forall value, arv_device_set_integer_feature_value device feature value w = (tt, w1)) /\
  (forall value, arv_device_set_float_feature_value device feature value w = (tt, w1)) /\
  (forall value, arv_device_set_string_feature_value device feature value w = (tt, w1)) /\
  mem w1 = mem w /\
  (tree_accessor_pure w device -> objs w1 = objs w).
Proof.
  intros Hnull. simpl.
  pose proof (unresolved_is_no_instance w device feature) as Hno.
  specialize (fun t => Hno t Hnull).
  pose proof (get_genicam_frame w device) as [Hmem _].
  pose proof (get_genicam_objs w device) as Hobjs.
  rewrite <- (get_feature_state w device feature) in *.
  unfold arv_device_get_integer_feature_value, arv_device_get_float_feature_value,
    arv_device_get_string_feature_value, arv_device_set_integer_feature_value,
    arv_device_set_float_feature_value, arv_device_set_string_feature_value,
    bind, ifM, ret,
    ARV_IS_GC_INTEGER, ARV_IS_GC_ENUMERATION, ARV_IS_GC_BOOLEAN, ARV_IS_GC_FLOAT,
    ARV_IS_GC_STRING.
  destruct (arv_device_get_feature device feature w) as [node w1]; simpl in *.
  rewrite !Hno. repeat split; assumption.
Qed.

(** C7. The two bounds accessors write through [min] and [max] only for
    a node of their own variant: for a name that resolves to no Integer
    node the integer accessor calls no node method and leaves C memory,
    hence both output locations, as it was, and likewise the float
    accessor for a name that resolves to no Float node. *)
Theorem bounds_untouched_on_other_variant w device feature (min max : pointer) :
  let node := fst (arv_device_get_feature device feature w) in
  let w1 := snd (arv_device_get_feature device feature w) in
  (ARV_IS_GC_INTEGER node w1 = false ->
     arv_device_get_integer_feature_bounds device feature min max w = (tt, w1) /\
     mem (snd (arv_device_get_integer_feature_bounds device feature min max w)) = mem w) /\
  (ARV_IS_GC_FLOAT node w1 = false ->
     arv_device_get_float_feature_bounds device feature min max w = (tt, w1) /\
     mem (snd (arv_device_get_float_feature_bounds device feature min max w)) = mem w).
Proof.
  simpl. pose proof (get_feature_frame w device feature) as [Hm _].
  unfold arv_device_get_integer_feature_bounds, arv_device_get_float_feature_bounds,
    bind, ifM, ret.
  destruct (arv_device_get_feature device feature w) as [node w1]; simpl in *.
  split; intros ->; simpl; auto.
Qed.

End DeviceProperties.

(** * The device functions on the modelled nodes *)

Section ModelledNodes.

Implicit Types (w : World Objects) (device node : pointer) (feature : string).

Lemma is_device_inv (e : Objects) (p : pointer) :
  G_TYPE_CHECK_INSTANCE_TYPE e p ARV_TYPE_DEVICE = true ->
  p <> NULL /\ exists gc memory, e !! p = Some (ObjDevice gc memory).
Proof.
  unfold G_TYPE_CHECK_INSTANCE_TYPE; simpl; unfold object_is_a.
  intros [Hp Ho]%andb_prop. split.
  - apply N.eqb_neq. now destruct (p =? NULL).
  - destruct (e !! p) as [[gc memory| |n|]|]; try done; [eauto | now destruct n].
Qed.

Lemma is_gc_inv (e : Objects) (p : pointer) :
  G_TYPE_CHECK_INSTANCE_TYPE e p ARV_TYPE_GC = true ->
  p <> NULL /\ exists nodes, e !! p = Some (ObjGc nodes).
Proof.
  unfold G_TYPE_CHECK_INSTANCE_TYPE; simpl; unfold object_is_a.
  intros [Hp Ho]%andb_prop. split.
  - apply N.eqb_neq. now destruct (p =? NULL).
  - destruct (e !! p) as [[|nodes|n|]|]; try done; [eauto | now destruct n].
Qed.

Lemma mem_get_genicam_device (e : Objects) (p gc : pointer) (memory : gmap N N) :
  e !! p = Some (ObjDevice gc memory) -> mem_get_genicam p e = (gc, e).
Proof. unfold mem_get_genicam. now intros ->. Qed.

(** What it takes for a name to resolve: a device, its feature tree, and
    the name in the tree. *)
Lemma resolves_inv w device feature node :
  fst (arv_device_get_feature device feature w) = node ->
  node <> NULL ->
  exists gc memory nodes,
    device <> NULL /\ objs w !! device = Some (ObjDevice gc memory) /\
    gc <> NULL /\ objs w !! gc = Some (ObjGc nodes) /\
    nodes !! feature = Some node.
Proof.
  rewrite get_feature_unfold.
  unfold arv_device_get_genicam, g_return_val_if_fail, ifM, ret, virtual, ext,
    ARV_IS_DEVICE, ARV_IS_GC.
  destruct (G_TYPE_CHECK_INSTANCE_TYPE (objs w) device ARV_TYPE_DEVICE) eqn:Hisdev;
    simpl; [|congruence].
  apply is_device_inv in Hisdev as (Hdev & gc & memory & Hd).
  rewrite (mem_get_genicam_device _ _ _ _ Hd); simpl.
  destruct (G_TYPE_CHECK_INSTANCE_TYPE (objs w) gc ARV_TYPE_GC) eqn:Hisgc;
    [|congruence].
  apply is_gc_inv in Hisgc as (Hgc & nodes & Hg).
  unfold gc_get_node. rewrite Hg.
  destruct (nodes !! feature) as [p|] eqn:Hn; simpl; [|congruence].
  intros -> _. now exists gc, memory, nodes.
Qed.

Lemma resolves_intro w device feature node gc memory nodes :
  device <> NULL -> objs w !! device = Some (ObjDevice gc memory) ->
  gc <> NULL -> objs w !! gc = Some (ObjGc nodes) ->
  nodes !! feature = Some node ->
  arv_device_get_feature device feature w =
    (node, mkWorld (mem w) (objs w) (arv_device_signals w)
                   (trace w ++ [CallGetGenicam device])).
Proof.
  intros Hdev%N.eqb_neq Hd Hgc%N.eqb_neq Hg Hn.
  unfold arv_device_get_feature, bind, arv_device_get_genicam,
    g_return_val_if_fail, ifM, ret, virtual, ext,
    ARV_IS_DEVICE, ARV_IS_GC, G_TYPE_CHECK_INSTANCE_TYPE; simpl.
  rewrite (mem_get_genicam_device _ _ _ _ Hd).
  unfold object_is_a, gc_get_node.
  rewrite Hdev, Hd; simpl. rewrite Hgc, Hg; simpl.
  now rewrite Hn.
Qed.

(** C8. On a name that resolves to an Integer node with bounds
    [lo, hi], setting a value [v] with [lo <= v <= hi] and then getting
    the value returns [v]. *)
Theorem integer_set_get_round_trip w device feature node (cur lo hi v : Z) :
  fst (arv_device_get_feature device feature w) = node ->
  node <> NULL ->
  objs w !! node = Some (ObjNode (GcInteger cur lo hi)) ->
  (lo <= v <= hi)%Z ->
  fst ((do _ <- arv_device_set_integer_feature_value device feature v ;;
        arv_device_get_integer_feature_value device feature) w) = v.
Proof.
  intros Hres Hnode Hint _.
  destruct (resolves_inv w device feature node Hres Hnode)
    as (gc & memory & nodes & Hdev & Hd & Hgc & Hg & Hn).
  assert (Hnz : (node =? NULL) = false) by now apply N.eqb_neq.
  unfold bind at 1. unfold arv_device_set_integer_feature_value, bind.
  rewrite (resolves_intro w device feature node gc memory nodes) by assumption.
  unfold ifM, ARV_IS_GC_INTEGER, G_TYPE_CHECK_INSTANCE_TYPE, ext; simpl.
  unfold object_is_a, gc_integer_set_value, update_node.
  rewrite Hnz, Hint; simpl.
  unfold arv_device_get_integer_feature_value, bind.
  erewrite (resolves_intro _ device feature node gc memory nodes); simpl;
    [ | assumption | rewrite lookup_insert_ne by congruence; eassumption
      | assumption | rewrite lookup_insert_ne by congruence; eassumption
      | assumption ].
  unfold ifM, ARV_IS_GC_INTEGER, G_TYPE_CHECK_INSTANCE_TYPE, ext; simpl.
  unfold object_is_a, gc_integer_get_value, read_node.
  now rewrite Hnz, lookup_insert_eq.
Qed.

End ModelledNodes.

(** * The theorems on the camera *)

(** With a buffer and a size the request does reach the transport. *)
Example read_memory_reaches_transport :
  fst (arv_device_read_memory 1 16 2 106 camera) = TRUE /\
  trace (snd (arv_device_read_memory 1 16 2 106 camera)) = [CallReadMemory 1 16 2 106] /\
  mem (snd (arv_device_read_memory 1 16 2 106 camera)) !! 106 = Some (CBytes [202; 254]).
Proof. repeat split; vm_compute; reflexivity. Qed.

Lemma memory_access_rejects_empty_request_witness :
  (0 = 0 \/ 106 = NULL) /\
  arv_device_read_memory 1 16 0 106 camera = (FALSE, camera) /\
  arv_device_write_memory 1 16 0 106 camera = (FALSE, camera).
Proof.
  split; [left; reflexivity|].
  apply (memory_access_rejects_empty_request camera 1 16 0 106).
  left; reflexivity.
Defined.

(** Handle 2 is the feature tree of the camera, an object that is not a
    device. *)
Lemma invalid_handle_fails_fast_witness :
  (2 = NULL \/ g_type_check_instance_is_a (objs camera) 2 ARV_TYPE_DEVICE = false) /\
  arv_device_create_stream 2 50 51 camera = (NULL, camera) /\
  arv_device_read_memory 2 16 4 106 camera = (FALSE, camera) /\
  arv_device_write_memory 2 16 4 106 camera = (FALSE, camera) /\
  arv_device_read_register 2 16 105 camera = (FALSE, camera) /\
  arv_device_write_register 2 16 7 camera = (FALSE, camera) /\
  arv_device_get_genicam 2 camera = (NULL, camera) /\
  arv_device_get_genicam_xml 2 104 camera = (None, camera) /\
  arv_device_emit_control_lost_signal 2 camera = (tt, camera).
Proof.
  assert (Hh : 2 = NULL \/
               g_type_check_instance_is_a (objs camera) 2 ARV_TYPE_DEVICE = false)
    by (right; vm_compute; reflexivity).
  split; [exact Hh|].
  destruct (invalid_handle_fails_fast camera 2 Hh)
    as (Hs & Hrm & Hwm & Hrr & Hwr & Hg & Hx & Hc).
  repeat split; auto.
Defined.

Lemma default_genicam_xml_is_empty_witness :
  ARV_IS_DEVICE 1 camera = true /\
  get_genicam_xml (ARV_DEVICE_GET_CLASS (objs camera) 1)
    = get_genicam_xml (fst (arv_device_class_init mem_device_class camera)) /\
  arv_device_get_genicam_xml 1 104 camera =
    (None, mkWorld (<[104 := CSize 0]> (mem camera)) (objs camera)
                   (arv_device_signals camera) [CallGetGenicamXml 1 104]).
Proof.
  assert (Hd : ARV_IS_DEVICE 1 camera = true) by (vm_compute; reflexivity).
  assert (Hk : get_genicam_xml (ARV_DEVICE_GET_CLASS (objs camera) 1)
               = get_genicam_xml (fst (arv_device_class_init mem_device_class camera)))
    by reflexivity.
  split; [exact Hd|]. split; [exact Hk|].
  exact (default_genicam_xml_is_empty camera camera mem_device_class 1 104 Hd Hk).
Defined.

(** "Width" is an Integer node: nothing is executed. "AcquisitionStart" is
    a Command node: it is executed once. *)
Lemma execute_command_only_on_command_witness :
  (ARV_IS_GC_COMMAND (fst (arv_device_get_feature 1 "Width" camera))
     (snd (arv_device_get_genicam 1 camera)) = false /\
   tree_accessor_pure camera 1 /\
   objs (snd (arv_device_execute_command 1 "Width" camera)) = objs camera /\
   mem (snd (arv_device_execute_command 1 "Width" camera)) = mem camera /\
   trace (snd (arv_device_execute_command 1 "Width" camera)) = [CallGetGenicam 1]) /\
  (ARV_IS_GC_COMMAND (fst (arv_device_get_feature 1 "AcquisitionStart" camera))
     (snd (arv_device_get_genicam 1 camera)) = true /\
   objs (snd (arv_device_execute_command 1 "AcquisitionStart" camera)) !! 8
     = Some (ObjNode (GcCommand 1)) /\
   trace (snd (arv_device_execute_command 1 "AcquisitionStart" camera))
     = [CallGetGenicam 1; CallCommandExecute 8]).
Proof.
  split.
  - assert (Hno : ARV_IS_GC_COMMAND (fst (arv_device_get_feature 1 "Width" camera))
                    (snd (arv_device_get_genicam 1 camera)) = false)
      by (vm_compute; reflexivity).
    assert (Hp : tree_accessor_pure camera 1) by (vm_compute; reflexivity).
    destruct (execute_command_only_on_command camera 1 "Width") as [_ Hrest].
    destruct (Hrest Hno) as (Heq & Hmem & Hobjs).
    rewrite Heq. simpl snd.
    split; [exact Hno|]. split; [exact Hp|]. split; [exact (Hobjs Hp)|].
    split; [exact Hmem | vm_compute; reflexivity].
  - assert (Hyes : ARV_IS_GC_COMMAND
                     (fst (arv_device_get_feature 1 "AcquisitionStart" camera))
                     (snd (arv_device_get_genicam 1 camera)) = true)
      by (vm_compute; reflexivity).
    destruct (execute_command_only_on_command camera 1 "AcquisitionStart")
      as [Hexec _].
    rewrite (Hexec Hyes).
    split; [exact Hyes|]. split; vm_compute; reflexivity.
Defined.

(** "Gamma" is not a feature of the camera. *)
Lemma unresolved_feature_sentinels_witness :
  fst (arv_device_get_feature 1 "Gamma" camera) = NULL /\
  fst (arv_device_get_integer_feature_value 1 "Gamma" camera) = 0%Z /\
  fst (arv_device_get_float_feature_value 1 "Gamma" camera) = 0%float /\
  fst (arv_device_get_string_feature_value 1 "Gamma" camera) = None /\
  objs (snd (arv_device_set_integer_feature_value 1 "Gamma" 7 camera)) = objs camera /\
  objs (snd (arv_device_set_float_feature_value 1 "Gamma" 2.5 camera)) = objs camera /\
  objs (snd (arv_device_set_string_feature_value 1 "Gamma" "x" camera)) = objs camera.
Proof.
  assert (Hnull : fst (arv_device_get_feature 1 "Gamma" camera) = NULL)
    by (vm_compute; reflexivity).
  assert (Hp : tree_accessor_pure camera 1) by (vm_compute; reflexivity).
  split; [exact Hnull|].
  destruct (unresolved_feature_sentinels camera 1 "Gamma" Hnull)
    as (Hgi & Hgf & Hgs & Hsi & Hsf & Hss & _ & Hobjs).
  rewrite Hgi, Hgf, Hgs, Hsi, Hsf, Hss. simpl.
  repeat split; exact (Hobjs Hp).
Defined.

(** C2, as stated: on the unresolved name "Gamma" the string get returns
    the null pointer, which is not the empty string. *)
Lemma unresolved_string_get_is_not_empty_string :
  fst (arv_device_get_feature 1 "Gamma" camera) = NULL /\
  fst (arv_device_get_string_feature_value 1 "Gamma" camera) <> Some ""%string.
Proof. split; [vm_compute; reflexivity | vm_compute; discriminate]. Qed.

(** "Gain" is a Float node and "Width" an Integer node: the integer bounds
    of the first and the float bounds of the second leave the cells 100 to
    103 as they were. *)
Lemma bounds_untouched_on_other_variant_witness :
  (ARV_IS_GC_INTEGER (fst (arv_device_get_feature 1 "Gain" camera))
     (snd (arv_device_get_feature 1 "Gain" camera)) = false /\
   mem (snd (arv_device_get_integer_feature_bounds 1 "Gain" 100 101 camera))
     = mem camera) /\
  (ARV_IS_GC_FLOAT (fst (arv_device_get_feature 1 "Width" camera))
     (snd (arv_device_get_feature 1 "Width" camera)) = false /\
   mem (snd (arv_device_get_float_feature_bounds 1 "Width" 102 103 camera))
     = mem camera).
Proof.
  split.
  - assert (Hno : ARV_IS_GC_INTEGER (fst (arv_device_get_feature 1 "Gain" camera))
                    (snd (arv_device_get_feature 1 "Gain" camera)) = false)
      by (vm_compute; reflexivity).
    split; [exact Hno|].
    exact (proj2 (proj1 (bounds_untouched_on_other_variant camera 1 "Gain" 100 101) Hno)).
  - assert (Hno : ARV_IS_GC_FLOAT (fst (arv_device_get_feature 1 "Width" camera))
                    (snd (arv_device_get_feature 1 "Width" camera)) = false)
      by (vm_compute; reflexivity).
    split; [exact Hno|].
    exact (proj2 (proj2 (bounds_untouched_on_other_variant camera 1 "Width" 102 103) Hno)).
Defined.

(** On the matching variant the bounds are written. *)
Example integer_bounds_written :
  mem (snd (arv_device_get_integer_feature_bounds 1 "Width" 100 101 camera)) !! 100
    = Some (CInt64 1) /\
  mem (snd (arv_device_get_integer_feature_bounds 1 "Width" 100 101 camera)) !! 101
    = Some (CInt64 1920) /\
  mem (snd (arv_device_get_integer_feature_bounds 1 "Width" NULL 101 camera)) !! 100
    = Some (CInt64 11).
Proof. repeat split; vm_compute; reflexivity. Qed.

Lemma integer_set_get_round_trip_witness :
  (fst (arv_device_get_feature 1 "Width" camera) = 3 /\ 3 <> NULL /\
   objs camera !! 3 = Some (ObjNode (GcInteger 640 1 1920)) /\
   (1 <= 800 <= 1920)%Z) /\
  fst ((do _ <- arv_device_set_integer_feature_value 1 "Width" 800 ;;
        arv_device_get_integer_feature_value 1 "Width") camera) = 800%Z.
Proof.
  assert (Hres : fst (arv_device_get_feature 1 "Width" camera) = 3)
    by (vm_compute; reflexivity).
  assert (Hnz : 3 <> NULL) by discriminate.
  assert (Hint : objs camera !! 3 = Some (ObjNode (GcInteger 640 1 1920)))
    by (vm_compute; reflexivity).
  assert (Hb : (1 <= 800 <= 1920)%Z) by lia.
  split; [exact (conj Hres (conj Hnz (conj Hint Hb)))|].
  exact (integer_set_get_round_trip camera 1 "Width" 3 640 1 1920 800 Hres Hnz Hint Hb).
Defined.

(** The coercions of section 8 on the modelled nodes. *)
Example boolean_truthiness :
  fst ((do _ <- arv_device_set_integer_feature_value 1 "TriggerMode" 5 ;;
        arv_device_get_integer_feature_value 1 "TriggerMode") camera) = 1%Z.
Proof. vm_compute; reflexivity. Qed.

Example enumeration_by_name_and_value :
  fst ((do _ <- arv_device_set_string_feature_value 1 "PixelFormat" "RGB8" ;;
        arv_device_get_integer_feature_value 1 "PixelFormat") camera) = 1%Z /\
  fst ((do _ <- arv_device_set_integer_feature_value 1 "PixelFormat" 0 ;;
        arv_device_get_string_feature_value 1 "PixelFormat") camera) = Some "Mono8"%string.
Proof. split; vm_compute; reflexivity. Qed.

(** * Further properties of the device functions, for every transport *)

Section Delegation.

Context {E : Type} `{GObjectWorld E}.

Implicit Types (w : World E) (device node genicam : pointer) (feature : string).

(** What a call of a virtual method that received a pointer leaves: its
    result, the memory and objects it produced, one more recorded call. *)
Lemma virtual_mem_run {A} w device (c : Call)
    (method : ArvDeviceClass E -> Heap E -> A * Heap E) :
  virtual_mem device c method w =
    let r := method (ARV_DEVICE_GET_CLASS (objs w) device) (mem w, objs w) in
    (fst r, mkWorld (fst (snd r)) (snd (snd r)) (arv_device_signals w) (trace w ++ [c])).
Proof.
  unfold virtual_mem, ext_mem.
  now destruct (method _ _) as [a [m e]].
Qed.

Lemma virtual_run {A} w device (c : Call) (method : ArvDeviceClass E -> E -> A * E) :
  virtual device c method w =
    let r := method (ARV_DEVICE_GET_CLASS (objs w) device) (objs w) in
    (fst r, mkWorld (mem w) (snd r) (arv_device_signals w) (trace w ++ [c])).
Proof.
  unfold virtual, ext.
  now destruct (method _ _) as [a e].
Qed.

(** X1. On a device, with a buffer and a size above zero, a memory access
    is one call of the transport's method with the caller's arguments: the
    result is the transport's, memory and objects are as the transport
    left them, and no other call is made. The same holds for a register
    read with a value pointer and for any register write: address and
    value are not inspected. *)
Theorem raw_access_delegates w device (address size value32 : N) (buffer value : pointer) :
  ARV_IS_DEVICE device w = true ->
  let k := ARV_DEVICE_GET_CLASS (objs w) device in
  let after {A} (r : A * Heap E) (c : Call) :=
    (fst r, mkWorld (fst (snd r)) (snd (snd r)) (arv_device_signals w) (trace w ++ [c])) in
  (buffer <> NULL -> size <> 0 ->
     arv_device_read_memory device address size buffer w =
       after (read_memory k device address size buffer (mem w, objs w))
             (CallReadMemory device address size buffer) /\
     arv_device_write_memory device address size buffer w =
       after (write_memory k device address size buffer (mem w, objs w))
             (CallWriteMemory device address size buffer)) /\
  (value <> NULL ->
     arv_device_read_register device address value w =
       after (read_register k device address value (mem w, objs w))
             (CallReadRegister device address value)) /\
  arv_device_write_register device address value32 w =
    (fst (write_register k device address value32 (objs w)),
     mkWorld (mem w) (snd (write_register k device address value32 (objs w)))
             (arv_device_signals w) (trace w ++ [CallWriteRegister device address value32])).
Proof.
  intros Hd. simpl. split; [|split].
  - intros Hb%N.eqb_neq Hs.
    assert (Hpos : (0 <? size) = true) by (apply N.ltb_lt; lia).
    unfold arv_device_read_memory, arv_device_write_memory.
    split;
      (rewrite guard_passes by exact Hd;
       rewrite guard_passes by (unfold expr; now rewrite Hb);
       rewrite guard_passes by exact Hpos;
       apply virtual_mem_run).
  - intros Hv%N.eqb_neq. unfold arv_device_read_register.
    rewrite guard_passes by exact Hd.
    rewrite guard_passes by (unfold expr; now rewrite Hv).
    apply virtual_mem_run.
  - unfold arv_device_write_register.
    rewrite guard_passes by exact Hd. apply virtual_run.
Qed.

(** X2. On a device, stream creation and the tree accessor are one call of
    the transport's method with the caller's arguments, for every callback
    and user data, null included; so is the XML accessor when it is given
    a size pointer. The result is the transport's. *)
Theorem stream_and_tree_delegate w device (callback user_data size : pointer) :
  ARV_IS_DEVICE device w = true ->
  let k := ARV_DEVICE_GET_CLASS (objs w) device in
  let after {A} (r : A * Heap E) (c : Call) :=
    (fst r, mkWorld (fst (snd r)) (snd (snd r)) (arv_device_signals w) (trace w ++ [c])) in
  arv_device_create_stream device callback user_data w =
    after (create_stream k device callback user_data (mem w, objs w))
          (CallCreateStream device callback user_data) /\
  arv_device_get_genicam device w =
    (fst (get_genicam k device (objs w)),
     mkWorld (mem w) (snd (get_genicam k device (objs w)))
             (arv_device_signals w) (trace w ++ [CallGetGenicam device])) /\
  (size <> NULL ->
     arv_device_get_genicam_xml device size w =
       after (get_genicam_xml k device size (mem w, objs w))
             (CallGetGenicamXml device size)).
Proof.
  intros Hd. simpl. split; [|split].
  - unfold arv_device_create_stream.
    rewrite guard_passes by exact Hd. apply virtual_mem_run.
  - unfold arv_device_get_genicam.
    rewrite guard_passes by exact Hd. apply virtual_run.
  - intros Hs%N.eqb_neq. unfold arv_device_get_genicam_xml.
    rewrite guard_passes by exact Hd.
    rewrite guard_passes by (unfold expr; now rewrite Hs).
    apply virtual_mem_run.
Qed.

(** X3. A name resolves to a node only through a device and a valid
    feature tree: when [arv_device_get_feature] returns a node, the handle
    is a device, what its tree accessor returned is an [ArvGc], the node is
    the one [arv_gc_get_node] finds in it, and the accessor was called
    once. *)
Theorem get_feature_needs_device_and_tree w device feature :
  fst (arv_device_get_feature device feature w) <> NULL ->
  let r := get_genicam (ARV_DEVICE_GET_CLASS (objs w) device) device (objs w) in
  ARV_IS_DEVICE device w = true /\
  G_TYPE_CHECK_INSTANCE_TYPE (snd r) (fst r) ARV_TYPE_GC = true /\
  arv_device_get_feature device feature w =
    (arv_gc_get_node (snd r) (fst r) feature,
     mkWorld (mem w) (snd r) (arv_device_signals w) (trace w ++ [CallGetGenicam device])).
Proof.
  rewrite get_feature_unfold. simpl.
  destruct (ARV_IS_DEVICE device w) eqn:Hd.
  - unfold arv_device_get_genicam. rewrite guard_passes by exact Hd.
    rewrite virtual_run. simpl. unfold ARV_IS_GC. simpl.
    destruct (G_TYPE_CHECK_INSTANCE_TYPE _ _ ARV_TYPE_GC); [done|].
    intros Hn. now contradict Hn.
  - rewrite get_genicam_not_a_device by exact Hd.
    intros Hn. exfalso. apply Hn. reflexivity.
Qed.

(** X4. On a null handle, or one that is not a device, every feature
    operation returns its sentinel and the state is exactly as before: the
    transport is not called, no node is looked up. *)
Theorem feature_access_on_invalid_handle w device feature :
  device = NULL \/ g_type_check_instance_is_a (objs w) device ARV_TYPE_DEVICE = false ->
  arv_device_get_feature device feature w = (NULL, w) /\
  arv_device_execute_command device feature w = (tt, w) /\
  (forall value, arv_device_set_string_feature_value device feature value w = (tt, w)) /\
  arv_device_get_string_feature_value device feature w = (None, w) /\
  (forall value, arv_device_set_integer_feature_value device feature value w = (tt, w)) /\
  arv_device_get_integer_feature_value device feature w = (0%Z, w) /\
  (forall min max,
     arv_device_get_integer_feature_bounds device feature min max w = (tt, w)) /\
  (forall value, arv_device_set_float_feature_value device feature value w = (tt, w)) /\
  arv_device_get_float_feature_value device feature w = (0%float, w) /\
  (forall min max,
     arv_device_get_float_feature_bounds device feature min max w = (tt, w)).
Proof.
  intros Hd%not_a_device.
  assert (Hf : arv_device_get_feature device feature w = (NULL, w)).
  { rewrite get_feature_unfold, get_genicam_not_a_device by exact Hd.
    reflexivity. }
  split; [exact Hf|].
  split; [rewrite execute_command_unfold, Hf; reflexivity|].
  unfold arv_device_set_string_feature_value, arv_device_get_string_feature_value,
    arv_device_set_integer_feature_value, arv_device_get_integer_feature_value,
    arv_device_get_integer_feature_bounds, arv_device_set_float_feature_value,
    arv_device_get_float_feature_value, arv_device_get_float_feature_bounds, bind.
  rewrite Hf. repeat split.
Qed.

(** X5. The string accessors try Enumeration first and String second: a
    node that is an Enumeration is accessed by its entry name even when it
    is also a String; a node that is neither is left alone by the set, and
    the get returns the null pointer. No other method is called. *)
Theorem string_access_dispatch_order w device feature (value : string) :
  let node := fst (arv_device_get_feature device feature w) in
  let w1 := snd (arv_device_get_feature device feature w) in
  (ARV_IS_GC_ENUMERATION node w1 = true ->
     arv_device_set_string_feature_value device feature value w =
       ext (CallEnumerationSetStringValue node value)
           (arv_gc_enumeration_set_string_value node value) w1 /\
     arv_device_get_string_feature_value device feature w =
       ext (CallEnumerationGetStringValue node)
           (arv_gc_enumeration_get_string_value node) w1) /\
  (ARV_IS_GC_ENUMERATION node w1 = false -> ARV_IS_GC_STRING node w1 = true ->
     arv_device_set_string_feature_value device feature value w =
       ext (CallStringSetValue node value) (arv_gc_string_set_value node value) w1 /\
     arv_device_get_string_feature_value device feature w =
       ext (CallStringGetValue node) (arv_gc_string_get_value node) w1) /\
  (ARV_IS_GC_ENUMERATION node w1 = false -> ARV_IS_GC_STRING node w1 = false ->
     arv_device_set_string_feature_value device feature value w = (tt, w1) /\
     arv_device_get_string_feature_value device feature w = (None, w1)).
Proof.
  simpl.
  unfold arv_device_set_string_feature_value, arv_device_get_string_feature_value,
    bind, ifM, ret.
  destruct (arv_device_get_feature device feature w) as [node w1]; simpl.
  split; [|split].
  - now intros ->.
  - now intros -> ->.
  - now intros -> ->.
Qed.

(** X6. The float accessors accept a Float node and nothing else: there is
    no coercion from Integer, Enumeration or Boolean. On every node that
    is not a Float, whatever else it is an instance of, the set does
    nothing and the get returns 0.0 without calling a node method. *)
Theorem float_access_only_on_float w device feature (value : float) :
  let node := fst (arv_device_get_feature device feature w) in
  let w1 := snd (arv_device_get_feature device feature w) in
  (ARV_IS_GC_FLOAT node w1 = true ->
     arv_device_set_float_feature_value device feature value w =
       ext (CallFloatSetValue node value) (arv_gc_float_set_value node value) w1 /\
     arv_device_get_float_feature_value device feature w =
       ext (CallFloatGetValue node) (arv_gc_float_get_value node) w1) /\
  (ARV_IS_GC_FLOAT node w1 = false ->
     arv_device_set_float_feature_value device feature value w = (tt, w1) /\
     arv_device_get_float_feature_value device feature w = (0%float, w1)).
Proof.
  simpl.
  unfold arv_device_set_float_feature_value, arv_device_get_float_feature_value,
    bind, ifM, ret.
  destruct (arv_device_get_feature device feature w) as [node w1]; simpl.
  split; now intros ->.
Qed.

(** Settle the content of one cell after the stores of a bounds accessor. *)
Ltac bounds_cell :=
  intros;
  repeat match goal with Hor : _ \/ _ |- _ => destruct Hor as [Hor|Hor] end;
  try congruence;
  rewrite ?lookup_insert_eq; rewrite ?lookup_insert_ne by congruence;
  rewrite ?lookup_insert_eq; try congruence; try reflexivity.

(** X7. On an Integer node the bounds accessor asks the node for its
    minimum and then for its maximum, each only when the caller gave a
    pointer for it, and stores the answers there; every other cell of C
    memory keeps its content. When both pointers are the same cell it
    ends up holding the maximum. *)
Theorem integer_bounds_written_through w device feature (min max : pointer) :
  let node := fst (arv_device_get_feature device feature w) in
  let w1 := snd (arv_device_get_feature device feature w) in
  ARV_IS_GC_INTEGER node w1 = true ->
  let rmin := arv_gc_integer_get_min node (objs w1) in
  let rmax := arv_gc_integer_get_max node (if min =? NULL then objs w1 else snd rmin) in
  let w2 := snd (arv_device_get_integer_feature_bounds device feature min max w) in
  (max <> NULL -> mem w2 !! max = Some (CInt64 (fst rmax))) /\
  (min <> NULL -> min <> max -> mem w2 !! min = Some (CInt64 (fst rmin))) /\
  (forall p : pointer, p <> min \/ min = NULL -> p <> max \/ max = NULL ->
     mem w2 !! p = mem w !! p) /\
  trace w2 = trace w1 ++ (if min =? NULL then [] else [CallIntegerGetMin node])
                      ++ (if max =? NULL then [] else [CallIntegerGetMax node]).
Proof.
  simpl. pose proof (get_feature_frame w device feature) as [Hmem _].
  unfold arv_device_get_integer_feature_bounds, bind, ifM, ret, expr, ext, store.
  destruct (arv_device_get_feature device feature w) as [node w1]; simpl in *.
  intros ->. rewrite <- Hmem. clear Hmem.
  destruct (N.eqb_spec min NULL) as [->|Hmin];
    destruct (N.eqb_spec max NULL) as [->|Hmax]; simpl;
    try destruct (arv_gc_integer_get_min node (objs w1)) as [vmin e1]; simpl;
    try destruct (arv_gc_integer_get_max node _) as [vmax e2]; simpl;
    (split; [|split; [|split]];
     [ bounds_cell .. | rewrite ?app_nil_r, <- ?app_assoc; reflexivity ]).
Qed.

(** X8. The same for a Float node and the float bounds accessor. *)
Theorem float_bounds_written_through w device feature (min max : pointer) :
  let node := fst (arv_device_get_feature device feature w) in
  let w1 := snd (arv_device_get_feature device feature w) in
  ARV_IS_GC_FLOAT node w1 = true ->
  let rmin := arv_gc_float_get_min node (objs w1) in
  let rmax := arv_gc_float_get_max node (if min =? NULL then objs w1 else snd rmin) in
  let w2 := snd (arv_device_get_float_feature_bounds device feature min max w) in
  (max <> NULL -> mem w2 !! max = Some (CDouble (fst rmax))) /\
  (min <> NULL -> min <> max -> mem w2 !! min = Some (CDouble (fst rmin))) /\
  (forall p : pointer, p <> min \/ min = NULL -> p <> max \/ max = NULL ->
     mem w2 !! p = mem w !! p) /\
  trace w2 = trace w1 ++ (if min =? NULL then [] else [CallFloatGetMin node])
                      ++ (if max =? NULL then [] else [CallFloatGetMax node]).
Proof.
  simpl. pose proof (get_feature_frame w device feature) as [Hmem _].
  unfold arv_device_get_float_feature_bounds, bind, ifM, ret, expr, ext, store.
  destruct (arv_device_get_feature device feature w) as [node w1]; simpl in *.
  intros ->. rewrite <- Hmem. clear Hmem.
  destruct (N.eqb_spec min NULL) as [->|Hmin];
    destruct (N.eqb_spec max NULL) as [->|Hmax]; simpl;
    try destruct (arv_gc_float_get_min node (objs w1)) as [vmin e1]; simpl;
    try destruct (arv_gc_float_get_max node _) as [vmax e2]; simpl;
    (split; [|split; [|split]];
     [ bounds_cell .. | rewrite ?app_nil_r, <- ?app_assoc; reflexivity ]).
Qed.


End Delegation.

(** * The further properties on the camera *)

Lemma raw_access_delegates_witness :
  (ARV_IS_DEVICE 1 camera = true /\ 106 <> NULL /\ 2 <> 0 /\ 105 <> NULL) /\
  arv_device_read_memory 1 16 2 106 camera =
    (TRUE, mkWorld (<[106 := CBytes [202; 254]]> (mem camera)) (objs camera)
                   (arv_device_signals camera) [CallReadMemory 1 16 2 106]) /\
  trace (snd (arv_device_write_memory 1 16 2 106 camera)) = [CallWriteMemory 1 16 2 106] /\
  arv_device_read_register 1 16 105 camera =
    (TRUE, mkWorld (<[105 := CUInt32 3405643776]> (mem camera)) (objs camera)
                   (arv_device_signals camera) [CallReadRegister 1 16 105]) /\
  trace (snd (arv_device_write_register 1 16 7 camera)) = [CallWriteRegister 1 16 7].
Proof.
  assert (Hd : ARV_IS_DEVICE 1 camera = true) by (vm_compute; reflexivity).
  assert (Hb : 106 <> NULL) by discriminate.
  assert (Hs : 2 <> 0) by discriminate.
  assert (Hv : 105 <> NULL) by discriminate.
  split; [exact (conj Hd (conj Hb (conj Hs Hv)))|].
  destruct (raw_access_delegates camera 1 16 2 7 106 105 Hd) as (Hm & Hr & Hw).
  destruct (Hm Hb Hs) as [Hrd Hwr].
  rewrite Hrd, Hwr, (Hr Hv), Hw.
  repeat split; vm_compute; reflexivity.
Defined.

(** A null callback and null user data reach the transport as they are. *)
Lemma stream_and_tree_delegate_witness :
  (ARV_IS_DEVICE 1 camera = true /\ 104 <> NULL) /\
  fst (arv_device_create_stream 1 NULL NULL camera) = 9 /\
  objs (snd (arv_device_create_stream 1 NULL NULL camera)) !! 9
    = Some (ObjStream 1 NULL NULL) /\
  trace (snd (arv_device_create_stream 1 NULL NULL camera)) = [CallCreateStream 1 NULL NULL] /\
  arv_device_get_genicam 1 camera =
    (2, mkWorld (mem camera) (objs camera) (arv_device_signals camera) [CallGetGenicam 1]) /\
  trace (snd (arv_device_get_genicam_xml 1 104 camera)) = [CallGetGenicamXml 1 104].
Proof.
  assert (Hd : ARV_IS_DEVICE 1 camera = true) by (vm_compute; reflexivity).
  assert (Hs : 104 <> NULL) by discriminate.
  split; [exact (conj Hd Hs)|].
  destruct (stream_and_tree_delegate camera 1 NULL NULL 104 Hd) as (Hc & Hg & Hx).
  rewrite Hc, Hg, (Hx Hs).
  repeat split; vm_compute; reflexivity.
Defined.

Lemma get_feature_needs_device_and_tree_witness :
  fst (arv_device_get_feature 1 "Gain" camera) <> NULL /\
  ARV_IS_DEVICE 1 camera = true /\
  arv_device_get_feature 1 "Gain" camera =
    (4, mkWorld (mem camera) (objs camera) (arv_device_signals camera) [CallGetGenicam 1]).
Proof.
  assert (Hn : fst (arv_device_get_feature 1 "Gain" camera) <> NULL)
    by (vm_compute; discriminate).
  split; [exact Hn|].
  destruct (get_feature_needs_device_and_tree camera 1 "Gain" Hn) as (Hd & _ & Hf).
  split; [exact Hd|]. rewrite Hf. vm_compute; reflexivity.
Defined.

(** Handle 2 is the feature tree, not a device. *)
Lemma feature_access_on_invalid_handle_witness :
  (2 = NULL \/ g_type_check_instance_is_a (objs camera) 2 ARV_TYPE_DEVICE = false) /\
  arv_device_get_feature 2 "Width" camera = (NULL, camera) /\
  arv_device_execute_command 2 "AcquisitionStart" camera = (tt, camera) /\
  arv_device_set_integer_feature_value 2 "Width" 800 camera = (tt, camera) /\
  arv_device_get_integer_feature_value 2 "Width" camera = (0%Z, camera) /\
  arv_device_get_integer_feature_bounds 2 "Width" 100 101 camera = (tt, camera) /\
  arv_device_get_string_feature_value 2 "DeviceUserID" camera = (None, camera) /\
  arv_device_get_float_feature_value 2 "Gain" camera = (0%float, camera).
Proof.
  assert (Hh : 2 = NULL \/
               g_type_check_instance_is_a (objs camera) 2 ARV_TYPE_DEVICE = false)
    by (right; vm_compute; reflexivity).
  split; [exact Hh|].
  split; [exact (proj1 (feature_access_on_invalid_handle camera 2 "Width" Hh))|].
  split; [exact (proj1 (proj2
            (feature_access_on_invalid_handle camera 2 "AcquisitionStart" Hh)))|].
  destruct (feature_access_on_invalid_handle camera 2 "Width" Hh)
    as (_ & _ & _ & _ & Hsi & Hgi & Hbi & _).
  split; [exact (Hsi 800%Z)|]. split; [exact Hgi|]. split; [exact (Hbi 100 101)|].
  split.
  - exact (proj1 (proj2 (proj2 (proj2
      (feature_access_on_invalid_handle camera 2 "DeviceUserID" Hh))))).
  - destruct (feature_access_on_invalid_handle camera 2 "Gain" Hh)
      as (_ & _ & _ & _ & _ & _ & _ & _ & Hgf & _).
    exact Hgf.
Defined.

(** "PixelFormat" is an Enumeration, "DeviceUserID" a String, "Width"
    neither. *)
Lemma string_access_dispatch_order_witness :
  (ARV_IS_GC_ENUMERATION (fst (arv_device_get_feature 1 "PixelFormat" camera))
     (snd (arv_device_get_feature 1 "PixelFormat" camera)) = true /\
   trace (snd (arv_device_get_string_feature_value 1 "PixelFormat" camera))
     = [CallGetGenicam 1; CallEnumerationGetStringValue 6]) /\
  (ARV_IS_GC_ENUMERATION (fst (arv_device_get_feature 1 "DeviceUserID" camera))
     (snd (arv_device_get_feature 1 "DeviceUserID" camera)) = false /\
   ARV_IS_GC_STRING (fst (arv_device_get_feature 1 "DeviceUserID" camera))
     (snd (arv_device_get_feature 1 "DeviceUserID" camera)) = true /\
   trace (snd (arv_device_set_string_feature_value 1 "DeviceUserID" "cam1" camera))
     = [CallGetGenicam 1; CallStringSetValue 7 "cam1"]) /\
  (ARV_IS_GC_ENUMERATION (fst (arv_device_get_feature 1 "Width" camera))
     (snd (arv_device_get_feature 1 "Width" camera)) = false /\
   ARV_IS_GC_STRING (fst (arv_device_get_feature 1 "Width" camera))
     (snd (arv_device_get_feature 1 "Width" camera)) = false /\
   fst (arv_device_get_string_feature_value 1 "Width" camera) = None /\
   objs (snd (arv_device_set_string_feature_value 1 "Width" "x" camera)) = objs camera).
Proof.
  split; [|split].
  - assert (He : ARV_IS_GC_ENUMERATION (fst (arv_device_get_feature 1 "PixelFormat" camera))
                   (snd (arv_device_get_feature 1 "PixelFormat" camera)) = true)
      by (vm_compute; reflexivity).
    split; [exact He|].
    destruct (string_access_dispatch_order camera 1 "PixelFormat" "") as [Henum _].
    rewrite (proj2 (Henum He)). vm_compute; reflexivity.
  - assert (He : ARV_IS_GC_ENUMERATION (fst (arv_device_get_feature 1 "DeviceUserID" camera))
                   (snd (arv_device_get_feature 1 "DeviceUserID" camera)) = false)
      by (vm_compute; reflexivity).
    assert (Hs : ARV_IS_GC_STRING (fst (arv_device_get_feature 1 "DeviceUserID" camera))
                   (snd (arv_device_get_feature 1 "DeviceUserID" camera)) = true)
      by (vm_compute; reflexivity).
    split; [exact He|]. split; [exact Hs|].
    destruct (string_access_dispatch_order camera 1 "DeviceUserID" "cam1")
      as (_ & Hstr & _).
    rewrite (proj1 (Hstr He Hs)). vm_compute; reflexivity.
  - assert (He : ARV_IS_GC_ENUMERATION (fst (arv_device_get_feature 1 "Width" camera))
                   (snd (arv_device_get_feature 1 "Width" camera)) = false)
      by (vm_compute; reflexivity).
    assert (Hs : ARV_IS_GC_STRING (fst (arv_device_get_feature 1 "Width" camera))
                   (snd (arv_device_get_feature 1 "Width" camera)) = false)
      by (vm_compute; reflexivity).
    split; [exact He|]. split; [exact Hs|].
    destruct (string_access_dispatch_order camera 1 "Width" "x") as (_ & _ & Hnone).
    destruct (Hnone He Hs) as [Hset Hget].
    rewrite Hset, Hget. split; vm_compute; reflexivity.
Defined.

(** "Gain" is a Float; "Width" is an Integer, which the float accessors do
    not read. *)
Lemma float_access_only_on_float_witness :
  (ARV_IS_GC_FLOAT (fst (arv_device_get_feature 1 "Gain" camera))
     (snd (arv_device_get_feature 1 "Gain" camera)) = true /\
   fst (arv_device_get_float_feature_value 1 "Gain" camera) = 1.5%float) /\
  (ARV_IS_GC_FLOAT (fst (arv_device_get_feature 1 "Width" camera))
     (snd (arv_device_get_feature 1 "Width" camera)) = false /\
   fst (arv_device_get_float_feature_value 1 "Width" camera) = 0%float /\
   objs (snd (arv_device_set_float_feature_value 1 "Width" 2.5 camera)) = objs camera).
Proof.
  split.
  - assert (Hf : ARV_IS_GC_FLOAT (fst (arv_device_get_feature 1 "Gain" camera))
                   (snd (arv_device_get_feature 1 "Gain" camera)) = true)
      by (vm_compute; reflexivity).
    split; [exact Hf|].
    destruct (float_access_only_on_float camera 1 "Gain" 0) as [Hyes _].
    rewrite (proj2 (Hyes Hf)). vm_compute; reflexivity.
  - assert (Hf : ARV_IS_GC_FLOAT (fst (arv_device_get_feature 1 "Width" camera))
                   (snd (arv_device_get_feature 1 "Width" camera)) = false)
      by (vm_compute; reflexivity).
    split; [exact Hf|].
    destruct (float_access_only_on_float camera 1 "Width" 2.5) as [_ Hno].
    destruct (Hno Hf) as [Hset Hget].
    rewrite Hset, Hget. split; vm_compute; reflexivity.
Defined.

(** The bounds of "Width" are 1 and 1920; cell 102 is not an output. *)
Lemma integer_bounds_written_through_witness :
  ARV_IS_GC_INTEGER (fst (arv_device_get_feature 1 "Width" camera))
    (snd (arv_device_get_feature 1 "Width" camera)) = true /\
  mem (snd (arv_device_get_integer_feature_bounds 1 "Width" 100 101 camera)) !! 101
    = Some (CInt64 1920) /\
  mem (snd (arv_device_get_integer_feature_bounds 1 "Width" 100 101 camera)) !! 100
    = Some (CInt64 1) /\
  mem (snd (arv_device_get_integer_feature_bounds 1 "Width" 100 101 camera)) !! 102
    = Some (CDouble 3.5).
Proof.
  assert (Hi : ARV_IS_GC_INTEGER (fst (arv_device_get_feature 1 "Width" camera))
                 (snd (arv_device_get_feature 1 "Width" camera)) = true)
    by (vm_compute; reflexivity).
  split; [exact Hi|].
  destruct (integer_bounds_written_through camera 1 "Width" 100 101 Hi)
    as (Hmax & Hmin & Hframe & _).
  split; [rewrite Hmax by discriminate; vm_compute; reflexivity|].
  split; [rewrite Hmin by discriminate; vm_compute; reflexivity|].
  rewrite (Hframe 102) by (left; discriminate). vm_compute; reflexivity.
Defined.

(** The bounds of "Gain" are 0 and 24; with the same cell for both, the
    maximum is what it holds. *)
Lemma float_bounds_written_through_witness :
  ARV_IS_GC_FLOAT (fst (arv_device_get_feature 1 "Gain" camera))
    (snd (arv_device_get_feature 1 "Gain" camera)) = true /\
  mem (snd (arv_device_get_float_feature_bounds 1 "Gain" 102 103 camera)) !! 103
    = Some (CDouble 24) /\
  mem (snd (arv_device_get_float_feature_bounds 1 "Gain" 102 103 camera)) !! 102
    = Some (CDouble 0) /\
  mem (snd (arv_device_get_float_feature_bounds 1 "Gain" 102 102 camera)) !! 102
    = Some (CDouble 24).
Proof.
  assert (Hf : ARV_IS_GC_FLOAT (fst (arv_device_get_feature 1 "Gain" camera))
                 (snd (arv_device_get_feature 1 "Gain" camera)) = true)
    by (vm_compute; reflexivity).
  split; [exact Hf|].
  destruct (float_bounds_written_through camera 1 "Gain" 102 103 Hf)
    as (Hmax & Hmin & _).
  split; [rewrite Hmax by discriminate; vm_compute; reflexivity|].
  split; [rewrite Hmin by discriminate; vm_compute; reflexivity|].
  destruct (float_bounds_written_through camera 1 "Gain" 102 102 Hf) as (Hsame & _).
  rewrite Hsame by discriminate. vm_compute; reflexivity.
Defined.

